(** * Patient records: validation, derived fields, merge, queries

    A shallow embedding of [main.py], the patient-record service: the
    [Patient] and [PatientUpdate] models, the JSON document that holds the
    records, and the six request handlers.

    Modelling conventions.
    - A Python [int] is a [Z].  A Python [float] is the exact rational it
      denotes, a [Q]: the binary rounding of [/] and [**] and the non-finite
      floats are outside the model.
    - A Python [dict] is an association list in insertion order, since
      [sorted(data.values(), ...)] observes that order.
    - [patients.json] is the state.  A handler is a function from the
      document to an outcome and the document left behind; an exception
      leaves the document as the last [save_data] wrote it.  The file is
      assumed present and well-formed ([open] and [json.load] succeed).
    - Field values of a record are JSON scalars. *)

From Stdlib Require Import List String Ascii ZArith QArith Qabs Bool Lia Lqa.
From Stdlib Require Import Permutation Sorted.
Import ListNotations.

Set Implicit Arguments.

Local Open Scope string_scope.
Local Open Scope list_scope.

(** ** Python values *)

Inductive value : Type :=
| VNone
| VBool (b : bool)
| VInt (z : Z)
| VFloat (q : Q)
| VStr (s : string).

(** ** Python dictionaries with string keys *)

Module PyDict.
Section Dict.
Variable V : Type.

Definition dict : Type := list (string * V).

(** [d.get(k)] *)
Fixpoint get (k : string) (d : dict) : option V :=
  match d with
  | [] => None
  | (k', v) :: d' => if String.eqb k k' then Some v else get k d'
  end.

(** [d.get(k, default)] *)
Definition get_default (k : string) (default : V) (d : dict) : V :=
  match get k d with
  | Some v => v
  | None => default
  end.

(** [k in d] *)
Definition contains (k : string) (d : dict) : bool :=
  match get k d with
  | Some _ => true
  | None => false
  end.

(** [d[k] = v]: an existing key keeps its position, a new key goes last. *)
Fixpoint set (k : string) (v : V) (d : dict) : dict :=
  match d with
  | [] => [(k, v)]
  | (k', v') :: d' =>
      if String.eqb k k' then (k, v) :: d' else (k', v') :: set k v d'
  end.

(** [del d[k]] *)
Fixpoint del (k : string) (d : dict) : dict :=
  match d with
  | [] => []
  | (k', v') :: d' =>
      if String.eqb k k' then del k d' else (k', v') :: del k d'
  end.

Definition keys (d : dict) : list string := map fst d.
Definition values (d : dict) : list V := map snd d.

(** [for key, value in upd.items(): d[key] = value] *)
Definition update (upd : dict) (d : dict) : dict :=
  fold_left (fun acc kv => set (fst kv) (snd kv) acc) upd d.

(** Keys of a Python dictionary are pairwise distinct. *)
Definition wf (d : dict) : Prop := NoDup (keys d).
End Dict.
End PyDict.

Abbreviation dict := PyDict.dict.

(** A stored record, and the whole document: identifier to record. *)
Definition record : Type := dict value.
Definition store : Type := dict record.

(** ** Outcomes *)

Inductive error : Type :=
| HTTPException (status_code : Z) (detail : string)
| ValidationError (loc : list string)
| TypeError.

Inductive response : Type :=
| JSONResponse (status_code : Z) (message : string).

(** A handler reads and writes the document and may raise. *)
Definition io (A : Type) : Type := store -> (error + A) * store.

Definition ret {A} (a : A) : io A := fun f => (inr a, f).

Definition raise {A} (e : error) : io A := fun f => (inl e, f).

Definition bind {A B} (m : io A) (k : A -> io B) : io B :=
  fun f =>
    match m f with
    | (inl e, f') => (inl e, f')
    | (inr a, f') => k a f'
    end.

Notation "x <- m ;; k" := (bind m (fun x => k))
  (at level 61, m at next level, right associativity).
Notation "m ;;; k" := (bind m (fun _ => k))
  (at level 61, right associativity).

(** [json.load] of the document. *)
Definition load_data : io store := fun f => (inr f, f).

(** [json.dump] over the document: the whole file is replaced. *)
Definition save_data (data : store) : io unit := fun _ => (inr tt, data).

(** ** Built-in [round]

    [round(x, ndigits)] for [ndigits >= 0]: the multiple of [10^-ndigits]
    nearest to [x], a tie going to the even multiple. *)

Definition round_half_even (x : Q) : Z :=
  let n := Qnum x in
  let d := Zpos (Qden x) in
  let k := (n / d)%Z in
  match (2 * (n mod d) ?= d)%Z with
  | Lt => k
  | Gt => (k + 1)%Z
  | Eq => if Z.even k then k else (k + 1)%Z
  end.

Definition round (x : Q) (ndigits : nat) : Q :=
  let scale := (10 ^ Z.of_nat ndigits)%Z in
  Qmake (round_half_even (x * inject_Z scale)) (Z.to_pos scale).

(** [x < y] on floats. *)
Definition Qltb (x y : Q) : bool := negb (Qle_bool y x).

(** ** The [Patient] model *)

Inductive Gender : Type := male | female | other.

Definition Gender_str (g : Gender) : string :=
  match g with
  | male => "male"
  | female => "female"
  | other => "other"
  end.

Module Patient.
Record t : Type := Build {
  id : string;
  name : string;
  city : string;
  age : Z;
  gender : Gender;
  height : Q;
  weight : Q
}.

(** The [Field] constraints: [gt=0, lt=120] on [age], [gt=0] on [height]
    and on [weight].  Every instance that validation builds satisfies
    them. *)
Definition ok (self : t) : Prop :=
  (0 < age self < 120)%Z /\ 0 < height self /\ 0 < weight self.

(** [@computed_field bmi].  The height of an instance is positive (see
    [ok]), so the division is defined. *)
Definition bmi (self : t) : Q :=
  round (weight self / (height self) ^ 2) 2.

(** [@computed_field verdict] *)
Definition verdict (self : t) : string :=
  if Qltb (bmi self) 18.5 then "Underweight"
  else if Qle_bool 18.5 (bmi self) && Qltb (bmi self) 24.9
  then "Normal weight"
  else if Qle_bool 25 (bmi self) && Qltb (bmi self) 29.9
  then "Overweight"
  else "Obesity".

(** [self.model_dump(exclude=['id'])]: the declared fields in order, then
    the computed ones. *)
Definition model_dump_exclude_id (self : t) : record :=
  [ ("name", VStr (name self));
    ("city", VStr (city self));
    ("age", VInt (age self));
    ("gender", VStr (Gender_str (gender self)));
    ("height", VFloat (height self));
    ("weight", VFloat (weight self));
    ("bmi", VFloat (bmi self));
    ("verdict", VStr (verdict self)) ].
End Patient.

(** ** The [PatientUpdate] model

    Every field is [Optional] with default [None], and the model remembers
    which fields the request set: a field is unset, set to [None], or set to
    a value. *)

Inductive field_state (A : Type) : Type :=
| Unset
| SetNone
| SetTo (a : A).
Arguments Unset {A}.
Arguments SetNone {A}.
Arguments SetTo {A} a.

Module PatientUpdate.
Record t : Type := Build {
  name : field_state string;
  city : field_state string;
  age : field_state Z;
  gender : field_state Gender;
  height : field_state Q;
  weight : field_state Q
}.

Definition dump_field {A} (k : string) (inj : A -> value)
    (f : field_state A) : record :=
  match f with
  | Unset => []
  | SetNone => [(k, VNone)]
  | SetTo a => [(k, inj a)]
  end.

(** [self.model_dump(exclude_unset=True)] *)
Definition model_dump_exclude_unset (self : t) : record :=
  dump_field "name" VStr (name self)
  ++ dump_field "city" VStr (city self)
  ++ dump_field "age" VInt (age self)
  ++ dump_field "gender" (fun g => VStr (Gender_str g)) (gender self)
  ++ dump_field "height" VFloat (height self)
  ++ dump_field "weight" VFloat (weight self).
End PatientUpdate.

(** ** Ordering of values and [sorted] *)

(** The number a value stands for under [<]; [bool] is a subtype of [int]. *)
Definition numeric (v : value) : option Q :=
  match v with
  | VBool b => Some (if b then 1 else 0)
  | VInt z => Some (inject_Z z)
  | VFloat q => Some q
  | VNone | VStr _ => None
  end.

(** [a < b]; [None] when Python raises [TypeError] for the two types. *)
Definition py_lt (a b : value) : option bool :=
  match a, b with
  | VStr s, VStr t => Some (String.ltb s t)
  | _, _ =>
      match numeric a, numeric b with
      | Some x, Some y => Some (Qltb x y)
      | _, _ => None
      end
  end.

Section Sorted.
Variable A : Type.
Variable key : A -> value.

(** Insertion into a list in order, before the first element that is not
    smaller: only [<] is asked, as [list.sort] does. *)
Fixpoint insert (x : A) (l : list A) : option (list A) :=
  match l with
  | [] => Some [x]
  | y :: l' =>
      match py_lt (key y) (key x) with
      | None => None
      | Some true => option_map (cons y) (insert x l')
      | Some false => Some (x :: y :: l')
      end
  end.

(** A stable sort; the result of a stable sort does not depend on the
    algorithm, so insertion stands for the one [list.sort] runs. *)
Fixpoint sort (l : list A) : option (list A) :=
  match l with
  | [] => Some []
  | x :: l' =>
      match sort l' with
      | None => None
      | Some s => insert x s
      end
  end.

(** [sorted(l, key=key, reverse=reverse)]: with [reverse] the list is
    reversed, sorted and reversed again, which keeps equal keys in their
    original order. *)
Definition sorted (l : list A) (reverse : bool) : option (list A) :=
  if reverse then option_map (@rev A) (sort (rev l)) else sort l.
End Sorted.

(** ** Validation of a [Patient], and the handlers *)

Section Service.

(** Outside strict mode the validation library also converts some values of
    another JSON type (a numeric string, a boolean, a float without
    fraction) into the field's type.  Which ones is left open: the two
    functions below say what it makes of a value that is neither of the
    field's type nor [None]. *)
Variable lax_int : value -> option Z.
Variable lax_float : value -> option Q.

Definition validate_str (v : value) : option string :=
  match v with
  | VStr s => Some s
  | _ => None
  end.

Definition validate_int (v : value) : option Z :=
  match v with
  | VInt z => Some z
  | VNone => None
  | _ => lax_int v
  end.

Definition validate_float (v : value) : option Q :=
  match v with
  | VFloat q => Some q
  | VInt z => Some (inject_Z z)
  | VNone => None
  | _ => lax_float v
  end.

(** [Literal['male', 'female', 'other']] *)
Definition validate_gender (v : value) : option Gender :=
  match v with
  | VStr s =>
      if String.eqb s "male" then Some male
      else if String.eqb s "female" then Some female
      else if String.eqb s "other" then Some other
      else None
  | _ => None
  end.

(** A constraint on a converted value. *)
Definition constrain {A} (p : A -> bool) (o : option A) : option A :=
  match o with
  | Some a => if p a then Some a else None
  | None => None
  end.

(** A required field: the keyword must be there and must convert. *)
Definition required {A} (kwargs : record) (k : string)
    (conv : value -> option A) : option A :=
  match PyDict.get k kwargs with
  | Some v => conv v
  | None => None
  end.

Definition loc_of {A} (k : string) (o : option A) : list string :=
  match o with
  | Some _ => []
  | None => [k]
  end.

(** The constructor [Patient] on keyword arguments: every field is
    validated, keywords that name no field are ignored, and the error
    lists the fields that failed. *)
Definition Patient_validate (kwargs : record) : list string + Patient.t :=
  let id := required kwargs "id" validate_str in
  let name := required kwargs "name" validate_str in
  let city := required kwargs "city" validate_str in
  let age :=
    constrain (fun z => (0 <? z)%Z && (z <? 120)%Z)
      (required kwargs "age" validate_int) in
  let gender := required kwargs "gender" validate_gender in
  let height :=
    constrain (fun q => Qltb 0 q) (required kwargs "height" validate_float) in
  let weight :=
    constrain (fun q => Qltb 0 q) (required kwargs "weight" validate_float) in
  match id, name, city, age, gender, height, weight with
  | Some i, Some n, Some c, Some a, Some g, Some h, Some w =>
      inr (Patient.Build i n c a g h w)
  | _, _, _, _, _, _, _ =>
      inl (loc_of "id" id ++ loc_of "name" name ++ loc_of "city" city
           ++ loc_of "age" age ++ loc_of "gender" gender
           ++ loc_of "height" height ++ loc_of "weight" weight)
  end.


(** [GET /patient/{patient_id}] *)
Definition view_patient (patient_id : string) : io record :=
  data <- load_data ;;
  match PyDict.get patient_id data with
  | Some r => ret r
  | None => raise (HTTPException 404 "Patient not found")
  end.

Definition valid_fields : list string := ["height"; "weight"; "bmi"].

(** [GET /sort]; [order] is [None] when the query leaves it out. *)
Definition sort_patient (sort_by : string) (order : option string)
    : io (list record) :=
  let order := match order with Some o => o | None => "asc" end in
  if negb (existsb (String.eqb sort_by) valid_fields) then
    raise (HTTPException 400
      "Invalid sort please select from ['height', 'weight', 'bmi']")
  else if negb (existsb (String.eqb order) ["asc"; "desc"]) then
    raise (HTTPException 400 "Order should be asc or desc")
  else
    data <- load_data ;;
    let sorted_order := if String.eqb order "desc" then true else false in
    match sorted (fun x => PyDict.get_default sort_by (VInt 0) x)
            (PyDict.values data) sorted_order with
    | Some sorted_data => ret sorted_data
    | None => raise TypeError
    end.

(** [POST /create], on the validated body. *)
Definition create_patient (patient : Patient.t) : io response :=
  data <- load_data ;;
  if PyDict.contains (Patient.id patient) data then
    raise (HTTPException 400 "Patient with this ID already exists")
  else
    let data :=
      PyDict.set (Patient.id patient)
        (Patient.model_dump_exclude_id patient) data in
    save_data data ;;;
    ret (JSONResponse 201 "Patient created successfully").

(** [PUT /update/{patient_id}].  The record is changed in memory before it
    is validated; the document is written only after validation. *)
Definition update_patient (patient_id : string)
    (patient_update : PatientUpdate.t) : io response :=
  data <- load_data ;;
  match PyDict.get patient_id data with
  | None => raise (HTTPException 404 "Patient not found")
  | Some existing_patient =>
      let update_data :=
        PatientUpdate.model_dump_exclude_unset patient_update in
      let existing_patient := PyDict.update update_data existing_patient in
      let existing_patient :=
        PyDict.set "id" (VStr patient_id) existing_patient in
      match Patient_validate existing_patient with
      | inl loc => raise (ValidationError loc)
      | inr patient_pydantic_obj =>
          let existing_patient :=
            Patient.model_dump_exclude_id patient_pydantic_obj in
          let data := PyDict.set patient_id existing_patient data in
          save_data data ;;;
          ret (JSONResponse 200 "Patient updated successfully")
      end
  end.

(** [DELETE /delete/{patient_id}] *)
Definition delete_patient (patient_id : string) : io response :=
  data <- load_data ;;
  if negb (PyDict.contains patient_id data) then
    raise (HTTPException 404 "Patient not found")
  else
    let data := PyDict.del patient_id data in
    save_data data ;;;
    ret (JSONResponse 200 "Patient deleted successfully").

(** ** Requests

    The framework validates the body of [POST /create] as a [Patient] before
    the handler runs, and routes each request to its handler. *)

Inductive request : Type :=
| Create (body : record)
| Update (patient_id : string) (patient_update : PatientUpdate.t)
| Delete (patient_id : string).

Definition post_create (body : record) : io response :=
  match Patient_validate body with
  | inl loc => raise (ValidationError loc)
  | inr patient => create_patient patient
  end.

Definition handle (r : request) : io response :=
  match r with
  | Create body => post_create body
  | Update patient_id patient_update =>
      update_patient patient_id patient_update
  | Delete patient_id => delete_patient patient_id
  end.

(** The document after a sequence of requests. *)
Fixpoint run (rs : list request) (f : store) : store :=
  match rs with
  | [] => f
  | r :: rs' => run rs' (snd (handle r f))
  end.

End Service.

(** ** Vocabulary of the properties *)

(** Strict mode: no conversion from another JSON type. *)
Definition strict_int (v : value) : option Z := None.
Definition strict_float (v : value) : option Q := None.






(** A record as the handlers write it: the dump of a valid [Patient]. *)
Definition stored_form (r : record) : Prop :=
  exists p, Patient.ok p /\ r = Patient.model_dump_exclude_id p.

Definition store_ok (data : store) : Prop :=
  forall r, In r (PyDict.values data) -> stored_form r.

(** The keys of a stored record. *)
Definition record_fields : list string :=
  ["name"; "city"; "age"; "gender"; "height"; "weight"; "bmi"; "verdict"].





(** A patient under another name, in another city. *)
Definition with_name (s : string) (p : Patient.t) : Patient.t :=
  Patient.Build (Patient.id p) s (Patient.city p) (Patient.age p)
    (Patient.gender p) (Patient.height p) (Patient.weight p).

Definition with_city (s : string) (p : Patient.t) : Patient.t :=
  Patient.Build (Patient.id p) (Patient.name p) s (Patient.age p)
    (Patient.gender p) (Patient.height p) (Patient.weight p).



(** What a field of the update leaves under its key. *)
Definition after_field {A} (inj : A -> value) (f : field_state A)
    (before : option value) : option value :=
  match f with
  | Unset => before
  | SetNone => Some VNone
  | SetTo a => Some (inj a)
  end.

(** The keywords [update_patient] hands to the constructor: the stored
    record with the dumped update written over it, and the identifier. *)
Definition merged_kwargs (patient_id : string) (u : PatientUpdate.t)
    (old : record) : record :=
  PyDict.set "id" (VStr patient_id)
    (PyDict.update (PatientUpdate.model_dump_exclude_unset u) old).

(** The number a record is sorted by: the value of the field, 0 when the
    record has no such field. *)
Definition sort_key (sort_by : string) (r : record) : Q :=
  match PyDict.get sort_by r with
  | Some v =>
      match numeric v with
      | Some q => q
      | None => 0
      end
  | None => 0
  end.

(** The field, where a record has it, holds a number. *)
Definition numeric_field (sort_by : string) (r : record) : Prop :=
  forall v, PyDict.get sort_by r = Some v -> numeric v <> None.

(** ** Vocabulary of sorting *)

Section Order.
Variable A : Type.
Variable key : A -> value.
Variable num : A -> Q.

(** Every key is a number, the one [num] gives. *)
Definition numeric_keys (l : list A) : Prop :=
  forall x, In x l -> numeric (key x) = Some (num x).

Definition ascending (a b : A) : Prop := num a <= num b.
Definition descending (a b : A) : Prop := num b <= num a.

(** The elements whose number is [q]. *)
Definition has_key (q : Q) (a : A) : bool := Qeq_bool (num a) q.
End Order.

(** The order asked for is [desc]. *)
Definition is_desc (order : option string) : bool :=
  match order with
  | Some o => String.eqb o "desc"
  | None => false
  end.

(** ** Sample data *)

Definition john : Patient.t :=
  Patient.Build "P001" "John Doe" "New York" 30 male 1.5 56.

Definition john_kwargs : record :=
  [ ("id", VStr "P001"); ("name", VStr "John Doe");
    ("city", VStr "New York"); ("age", VInt 30); ("gender", VStr "male");
    ("height", VFloat 1.5); ("weight", VInt 56) ].

(** The same body with a bmi of its own. *)
Definition john_kwargs_with_bmi : record :=
  john_kwargs ++ [("bmi", VFloat 99)].

Definition nameless_kwargs : record :=
  PyDict.set "name" (VStr "") john_kwargs.

Definition one_patient : store :=
  [("P001", Patient.model_dump_exclude_id john)].

Definition only_weight : PatientUpdate.t :=
  PatientUpdate.Build Unset Unset Unset Unset Unset (SetTo 24.95).

Definition with_height (h : Q) (p : Patient.t) : Patient.t :=
  Patient.Build (Patient.id p) (Patient.name p) (Patient.city p)
    (Patient.age p) (Patient.gender p) h (Patient.weight p).

(** Heights 1.5, 1.8 and 1.6, in this order. *)
Definition three_patients : store :=
  [ ("P001", Patient.model_dump_exclude_id john);
    ("P002", Patient.model_dump_exclude_id (with_height 1.8 john));
    ("P003", Patient.model_dump_exclude_id (with_height 1.6 john)) ].



(** Two records, the second with [None] for its height. *)
Definition null_height_store : store :=
  [ ("P001", Patient.model_dump_exclude_id john);
    ("P009",
     PyDict.set "height" VNone (Patient.model_dump_exclude_id john)) ].

(** * Properties *)

(** ** Dictionaries *)

Module PyDictFacts.
Import PyDict.
Section Facts.
Variable V : Type.
Implicit Types (d : dict V) (k : string) (v : V).

Lemma contains_get k d :
  contains k d = true <-> exists v, get k d = Some v.
Proof.
  unfold contains. destruct (get k d) as [v|].
  - split; [eauto | reflexivity].
  - split; [discriminate | intros [v H]; discriminate].
Qed.

Lemma not_contains_get k d : contains k d = false <-> get k d = None.
Proof.
  unfold contains. destruct (get k d); split; congruence.
Qed.

Lemma get_set_same k v d : get k (set k v d) = Some v.
Proof.
  induction d as [|[k' v'] d IH]; simpl.
  - now rewrite String.eqb_refl.
  - destruct (String.eqb k k') eqn:E; simpl.
    + now rewrite String.eqb_refl.
    + now rewrite E.
Qed.

Lemma get_set_other k k' v d : k <> k' -> get k' (set k v d) = get k' d.
Proof.
  intros Hne. induction d as [|[k0 v0] d IH]; simpl.
  - destruct (String.eqb k' k) eqn:E; [|reflexivity].
    apply String.eqb_eq in E. congruence.
  - destruct (String.eqb k k0) eqn:E; simpl.
    + apply String.eqb_eq in E. subst k0.
      destruct (String.eqb k' k) eqn:E'; [|reflexivity].
      apply String.eqb_eq in E'. congruence.
    + now rewrite IH.
Qed.

Lemma get_del_same k d : get k (del k d) = None.
Proof.
  induction d as [|[k' v'] d IH]; simpl; [reflexivity|].
  destruct (String.eqb k k') eqn:E; simpl; [assumption|].
  now rewrite E.
Qed.

Lemma get_del_other k k' d : k <> k' -> get k' (del k d) = get k' d.
Proof.
  intros Hne. induction d as [|[k0 v0] d IH]; simpl; [reflexivity|].
  destruct (String.eqb k k0) eqn:E; simpl.
  - apply String.eqb_eq in E. subst k0.
    destruct (String.eqb k' k) eqn:E'; [|assumption].
    apply String.eqb_eq in E'. congruence.
  - now rewrite IH.
Qed.

Lemma get_In_values k v d : get k d = Some v -> In v (values d).
Proof.
  induction d as [|[k' v'] d IH]; simpl; [discriminate|].
  destruct (String.eqb k k'); intros H.
  - left. congruence.
  - right. auto.
Qed.

Lemma In_values_set k v d x :
  In x (values (set k v d)) -> x = v \/ In x (values d).
Proof.
  induction d as [|[k' v'] d IH]; simpl.
  - intros [H|[]]. now left.
  - destruct (String.eqb k k'); simpl; intros [H|H]; auto.
    destruct (IH H); auto.
Qed.

Lemma In_values_del k d x : In x (values (del k d)) -> In x (values d).
Proof.
  induction d as [|[k' v'] d IH]; simpl; [tauto|].
  destruct (String.eqb k k'); simpl; intuition.
Qed.

Lemma In_keys_get k d : In k (keys d) <-> get k d <> None.
Proof.
  induction d as [|[k' v'] d IH]; simpl.
  - tauto.
  - destruct (String.eqb k k') eqn:E.
    + apply String.eqb_eq in E. split; [discriminate | auto].
    + apply String.eqb_neq in E. rewrite <- IH.
      split; [intros [H|H]; congruence | auto].
Qed.

Lemma In_keys_del k k' d : In k' (keys (del k d)) -> In k' (keys d) /\ k <> k'.
Proof.
  induction d as [|[k0 v0] d IH]; simpl; [tauto|].
  destruct (String.eqb k k0) eqn:E; simpl.
  - intuition.
  - apply String.eqb_neq in E. intros [H|H]; [subst; auto | intuition].
Qed.

(** The three writes keep the keys pairwise distinct. *)
Lemma wf_del k d : wf d -> wf (del k d).
Proof.
  unfold wf. induction d as [|[k' v'] d IH]; simpl; intros H; [assumption|].
  inversion H as [|? ? Hnotin Hnd]; subst.
  destruct (String.eqb k k'); simpl; [auto|].
  constructor; [|auto].
  intros Hin. apply In_keys_del in Hin. tauto.
Qed.

Lemma keys_set k v d :
  keys (set k v d) = if contains k d then keys d else keys d ++ [k].
Proof.
  unfold contains. induction d as [|[k' v'] d IH]; simpl; [reflexivity|].
  destruct (String.eqb k k') eqn:E; simpl.
  - apply String.eqb_eq in E. now subst.
  - rewrite IH. now destruct (get k d).
Qed.

Lemma wf_set k v d : wf d -> wf (set k v d).
Proof.
  unfold wf. rewrite keys_set. intros H.
  destruct (contains k d) eqn:E; [assumption|].
  apply not_contains_get in E.
  apply NoDup_app; [assumption | repeat constructor; simpl; tauto |].
  intros x Hx [Hk|[]]. subst x.
  apply In_keys_get in Hx. congruence.
Qed.


Lemma update_app u1 u2 d : update (u1 ++ u2) d = update u2 (update u1 d).
Proof.
  unfold update. apply fold_left_app.
Qed.

Lemma del_absent k d : ~ In k (keys d) -> del k d = d.
Proof.
  induction d as [|[k0 v0] d IH]; simpl; intros Hnotin; [reflexivity|].
  destruct (String.eqb k k0) eqn:E0.
  - apply String.eqb_eq in E0. exfalso. apply Hnotin. left. now symmetry.
  - f_equal. apply IH. intros Hin. apply Hnotin. now right.
Qed.

Lemma length_del k d :
  wf d -> contains k d = true -> S (List.length (del k d)) = List.length d.
Proof.
  unfold wf. induction d as [|[k' v'] d IH]; simpl; intros Hnd Hc.
  - discriminate.
  - inversion Hnd as [|? ? Hnotin Hnd']; subst.
    unfold contains in Hc. simpl in Hc.
    destruct (String.eqb k k') eqn:E; simpl.
    + apply String.eqb_eq in E. subst k'. now rewrite del_absent.
    + f_equal. apply IH; assumption.
Qed.
End Facts.
End PyDictFacts.

(** ** Rounding *)



Example round_ties_to_even :
  round 0.125 2 == 0.12 /\ round 0.375 2 == 0.38 /\ round (-0.125) 2 == -0.12.
Proof.
  repeat split.
Qed.

(** ** Errors that leave the document alone, and deletion *)

Section HandlerFacts.
Variable lax_int : value -> option Z.
Variable lax_float : value -> option Q.

Local Abbreviation validate := (Patient_validate lax_int lax_float).
Local Abbreviation update := (update_patient lax_int lax_float).
Local Abbreviation create := (post_create lax_int lax_float).

(** C6: creating a patient whose identifier the document already holds
    raises the 400 conflict error and leaves the whole document, hence the
    record under that identifier, as it was; the same holds for a request
    body that validates to such a patient. *)
Theorem create_existing_conflict (data : store) (patient : Patient.t) :
  PyDict.contains (Patient.id patient) data = true ->
  create_patient patient data
    = (inl (HTTPException 400 "Patient with this ID already exists"), data)
  /\ forall body,
       validate body = inr patient ->
       create body data
       = (inl (HTTPException 400 "Patient with this ID already exists"),
          data).
Proof.
  intros Hin.
  assert (Hc : create_patient patient data
               = (inl (HTTPException 400
                         "Patient with this ID already exists"), data)).
  { unfold create_patient, bind, load_data, raise. now rewrite Hin. }
  split; [exact Hc|].
  intros body Hv. unfold post_create. now rewrite Hv.
Qed.

(** C7: for an identifier the document does not hold, get, update and
    delete each raise the 404 not-found error and leave the document as it
    was. *)
Theorem absent_id_not_found (data : store) (patient_id : string) :
  PyDict.contains patient_id data = false ->
  view_patient patient_id data
    = (inl (HTTPException 404 "Patient not found"), data)
  /\ (forall patient_update,
        update patient_id patient_update data
        = (inl (HTTPException 404 "Patient not found"), data))
  /\ delete_patient patient_id data
     = (inl (HTTPException 404 "Patient not found"), data).
Proof.
  intros Habs.
  pose proof (proj1 (PyDictFacts.not_contains_get _ _) Habs) as Hget.
  repeat split.
  - unfold view_patient, bind, load_data, raise. now rewrite Hget.
  - intros u. unfold update_patient, bind, load_data, raise.
    now rewrite Hget.
  - unfold delete_patient, bind, load_data, raise. now rewrite Habs.
Qed.

(** C10: deleting an identifier the document holds succeeds and removes
    that entry only: the identifier is gone, every other identifier keeps
    its record, and a document with distinct keys gets shorter by one. *)
Theorem delete_removes_only_that_entry (data : store) (patient_id : string) :
  PyDict.contains patient_id data = true ->
  exists data',
    delete_patient patient_id data
    = (inr (JSONResponse 200 "Patient deleted successfully"), data')
    /\ PyDict.get patient_id data' = None
    /\ (forall k, k <> patient_id -> PyDict.get k data' = PyDict.get k data)
    /\ (PyDict.wf data ->
        PyDict.wf data' /\ S (List.length data') = List.length data).
Proof.
  intros Hin. exists (PyDict.del patient_id data).
  split; [|split; [|split]].
  - unfold delete_patient, bind, load_data, save_data, ret.
    now rewrite Hin.
  - apply PyDictFacts.get_del_same.
  - intros k Hk. apply PyDictFacts.get_del_other. congruence.
  - intros Hwf. split.
    + now apply PyDictFacts.wf_del.
    + now apply PyDictFacts.length_del.
Qed.


(** ** Validation *)

Lemma Qltb_lt (x y : Q) : Qltb x y = true <-> x < y.
Proof.
  unfold Qltb. rewrite negb_true_iff.
  split; intros H.
  - apply Qnot_le_lt. intros Hle. apply Qle_bool_iff in Hle. congruence.
  - destruct (Qle_bool y x) eqn:E; [|reflexivity].
    apply Qle_bool_iff in E. exfalso. exact (Qlt_not_le _ _ H E).
Qed.

Lemma Qltb_ge (x y : Q) : Qltb x y = false <-> y <= x.
Proof.
  unfold Qltb. rewrite negb_false_iff. apply Qle_bool_iff.
Qed.

Lemma constrain_Some {A} (p : A -> bool) (o : option A) (a : A) :
  constrain p o = Some a <-> o = Some a /\ p a = true.
Proof.
  unfold constrain. destruct o as [x|].
  - destruct (p x) eqn:E; split.
    + intros H. inversion H. subst. auto.
    + intros [H _]. exact H.
    + discriminate.
    + intros [H Hp]. inversion H. subst. congruence.
  - split; [discriminate | intros [H _]; discriminate].
Qed.

Ltac split_fields :=
  repeat match goal with
    | |- context [match ?x with Some _ => _ | None => _ end] =>
        destruct x eqn:?
    end.

(** What a successful validation read from the keywords. *)
Lemma validate_inr (kwargs : record) (p : Patient.t) :
  validate kwargs = inr p <->
  required kwargs "id" validate_str = Some (Patient.id p)
  /\ required kwargs "name" validate_str = Some (Patient.name p)
  /\ required kwargs "city" validate_str = Some (Patient.city p)
  /\ constrain (fun z => (0 <? z)%Z && (z <? 120)%Z)
       (required kwargs "age" (validate_int lax_int))
     = Some (Patient.age p)
  /\ required kwargs "gender" validate_gender = Some (Patient.gender p)
  /\ constrain (fun q => Qltb 0 q)
       (required kwargs "height" (validate_float lax_float))
     = Some (Patient.height p)
  /\ constrain (fun q => Qltb 0 q)
       (required kwargs "weight" (validate_float lax_float))
     = Some (Patient.weight p).
Proof.
  unfold Patient_validate. split.
  - split_fields; intros H; try discriminate.
    inversion H. subst p. simpl. repeat split; reflexivity.
  - intros (Hi & Hn & Hc & Ha & Hg & Hh & Hw).
    rewrite Hi, Hn, Hc, Ha, Hg, Hh, Hw. now destruct p.
Qed.

(** The fields a failed validation names. *)
Lemma validate_inl (kwargs : record) (loc : list string) :
  validate kwargs = inl loc ->
  loc = loc_of "id" (required kwargs "id" validate_str)
        ++ loc_of "name" (required kwargs "name" validate_str)
        ++ loc_of "city" (required kwargs "city" validate_str)
        ++ loc_of "age"
             (constrain (fun z => (0 <? z)%Z && (z <? 120)%Z)
                (required kwargs "age" (validate_int lax_int)))
        ++ loc_of "gender" (required kwargs "gender" validate_gender)
        ++ loc_of "height"
             (constrain (fun q => Qltb 0 q)
                (required kwargs "height" (validate_float lax_float)))
        ++ loc_of "weight"
             (constrain (fun q => Qltb 0 q)
                (required kwargs "weight" (validate_float lax_float))).
Proof.
  unfold Patient_validate.
  split_fields; intros H; try discriminate; now inversion H.
Qed.

(** Validation builds valid patients only. *)
Lemma validate_ok (kwargs : record) (p : Patient.t) :
  validate kwargs = inr p -> Patient.ok p.
Proof.
  intros H. apply validate_inr in H.
  destruct H as (_ & _ & _ & Ha & _ & Hh & Hw).
  apply constrain_Some in Ha, Hh, Hw.
  destruct Ha as [_ Ha], Hh as [_ Hh], Hw as [_ Hw].
  apply andb_true_iff in Ha. destruct Ha as [Ha1 Ha2].
  apply Z.ltb_lt in Ha1, Ha2. apply Qltb_lt in Hh, Hw.
  unfold Patient.ok. auto.
Qed.


(** ** Derived fields *)








Lemma stored_form_keys (r : record) :
  stored_form r -> PyDict.keys r = record_fields.
Proof.
  now intros (p & _ & ->).
Qed.


(** ** What the handlers write *)

Local Abbreviation handle' := (handle lax_int lax_float).
Local Abbreviation run' := (run lax_int lax_float).


(** A record in the document after a request was there before, or is the
    dump of a patient that passed validation. *)
Lemma handle_values (req : request) (data : store) (r : record) :
  In r (PyDict.values (snd (handle' req data))) ->
  In r (PyDict.values data) \/ stored_form r.
Proof.
  destruct req as [body | patient_id patient_update | patient_id]; simpl.
  - unfold post_create.
    destruct (validate body) as [loc|p] eqn:Hv; simpl; [tauto|].
    unfold create_patient, bind, load_data, save_data, raise, ret.
    destruct (PyDict.contains (Patient.id p) data); simpl; [tauto|].
    intros Hin. apply PyDictFacts.In_values_set in Hin.
    destruct Hin as [->|Hin]; [right | tauto].
    exists p. split; [now apply validate_ok in Hv | reflexivity].
  - unfold update_patient, bind, load_data, save_data, raise, ret.
    destruct (PyDict.get patient_id data) as [existing|]; simpl; [|tauto].
    match goal with
    | |- context [Patient_validate _ _ ?kw] =>
        destruct (validate kw) as [loc|p] eqn:Hv
    end; simpl; [tauto|].
    intros Hin. apply PyDictFacts.In_values_set in Hin.
    destruct Hin as [->|Hin]; [right | tauto].
    exists p. split; [now apply validate_ok in Hv | reflexivity].
  - unfold delete_patient, bind, load_data, save_data, raise, ret.
    destruct (PyDict.contains patient_id data); simpl; [|tauto].
    intros Hin. left. now apply PyDictFacts.In_values_del in Hin.
Qed.

(** The handlers keep the identifiers of the document pairwise distinct. *)
Lemma handle_wf (req : request) (data : store) :
  PyDict.wf data -> PyDict.wf (snd (handle' req data)).
Proof.
  intros Hwf.
  destruct req as [body | patient_id patient_update | patient_id]; simpl.
  - unfold post_create.
    destruct (validate body) as [loc|p]; simpl; [exact Hwf|].
    unfold create_patient, bind, load_data, save_data, raise, ret.
    destruct (PyDict.contains (Patient.id p) data); simpl; [exact Hwf|].
    now apply PyDictFacts.wf_set.
  - unfold update_patient, bind, load_data, save_data, raise, ret.
    destruct (PyDict.get patient_id data) as [existing|]; simpl;
      [|exact Hwf].
    match goal with
    | |- context [Patient_validate _ _ ?kw] =>
        destruct (validate kw) as [loc|p]
    end; simpl; [exact Hwf|].
    now apply PyDictFacts.wf_set.
  - unfold delete_patient, bind, load_data, save_data, raise, ret.
    destruct (PyDict.contains patient_id data); simpl; [|exact Hwf].
    now apply PyDictFacts.wf_del.
Qed.

Lemma handle_store_ok (req : request) (data : store) :
  store_ok data -> store_ok (snd (handle' req data)).
Proof.
  intros Hok r Hin.
  destruct (handle_values _ _ _ Hin) as [Hold|Hnew]; auto.
Qed.

Lemma run_store_ok (rs : list request) :
  forall data, store_ok data -> store_ok (run' rs data).
Proof.
  induction rs as [|req rs IH]; simpl; intros data Hok.
  - exact Hok.
  - apply IH. now apply handle_store_ok.
Qed.




(** ** Construction *)

(** A field whose validation yields nothing makes the construction fail,
    and the error names it. *)
Ltac field_fails H :=
  match goal with
  | |- exists loc, Patient_validate _ _ ?kw = inl loc /\ In ?k loc =>
      let Hv := fresh "Hv" in
      let loc := fresh "loc" in
      let p := fresh "p" in
      destruct (Patient_validate lax_int lax_float kw) as [loc|p] eqn:Hv;
      [ exists loc; split; [reflexivity|];
        rewrite (validate_inl _ Hv), H; simpl;
        rewrite ?in_app_iff; simpl; tauto
      | apply validate_inr in Hv; rewrite H in Hv;
        decompose [and] Hv; discriminate ]
  end.

Lemma validate_gender_Some (v : value) (g : Gender) :
  validate_gender v = Some g -> v = VStr (Gender_str g).
Proof.
  destruct v as [| | | |s]; simpl; try discriminate.
  destruct (String.eqb_spec s "male") as [->|_];
    [intros H; now inversion H|].
  destruct (String.eqb_spec s "female") as [->|_];
    [intros H; now inversion H|].
  destruct (String.eqb_spec s "other") as [->|_];
    [intros H; now inversion H|].
  discriminate.
Qed.

(** C3 (as the code has it): construction validates every field and fails
    with a validation error that names the field when a required field is
    missing, when the age is not strictly between 0 and 120, when the
    gender is none of male, female, other, when the height is not
    positive, or when the weight is not positive; name and city need only
    be strings: in keywords that validate, either may be replaced by any
    string, the empty one included, and they validate still.  A create
    request whose body fails validation gets that error and writes
    nothing. *)
Theorem construction_validates (kwargs : record) :
  (forall k,
     In k ["id"; "name"; "city"; "age"; "gender"; "height"; "weight"] ->
     PyDict.get k kwargs = None ->
     exists loc, validate kwargs = inl loc /\ In k loc)
  /\ (forall v a,
       PyDict.get "age" kwargs = Some v ->
       validate_int lax_int v = Some a ->
       (a <= 0 \/ 120 <= a)%Z ->
       exists loc, validate kwargs = inl loc /\ In "age" loc)
  /\ (forall v,
       PyDict.get "gender" kwargs = Some v ->
       (forall g, v <> VStr (Gender_str g)) ->
       exists loc, validate kwargs = inl loc /\ In "gender" loc)
  /\ (forall v h,
       PyDict.get "height" kwargs = Some v ->
       validate_float lax_float v = Some h ->
       h <= 0 ->
       exists loc, validate kwargs = inl loc /\ In "height" loc)
  /\ (forall v w,
       PyDict.get "weight" kwargs = Some v ->
       validate_float lax_float v = Some w ->
       w <= 0 ->
       exists loc, validate kwargs = inl loc /\ In "weight" loc)
  /\ (forall p s,
       validate kwargs = inr p ->
       validate (PyDict.set "name" (VStr s) kwargs) = inr (with_name s p)
       /\ validate (PyDict.set "city" (VStr s) kwargs)
          = inr (with_city s p))
  /\ (forall loc data,
       validate kwargs = inl loc ->
       create kwargs data = (inl (ValidationError loc), data)).
Proof.
  split; [|split; [|split; [|split; [|split; [|split]]]]].
  - intros k Hk Hget.
    assert (Hnone : forall A (conv : value -> option A),
               required kwargs k conv = None)
      by (intros; unfold required; now rewrite Hget).
    simpl in Hk. repeat (destruct Hk as [<-|Hk]).
    + field_fails (Hnone string validate_str).
    + field_fails (Hnone string validate_str).
    + field_fails (Hnone string validate_str).
    + assert (H : constrain (fun z => (0 <? z)%Z && (z <? 120)%Z)
                    (required kwargs "age" (validate_int lax_int)) = None)
        by now rewrite Hnone.
      field_fails H.
    + field_fails (Hnone Gender validate_gender).
    + assert (H : constrain (fun q => Qltb 0 q)
                    (required kwargs "height" (validate_float lax_float))
                  = None)
        by now rewrite Hnone.
      field_fails H.
    + assert (H : constrain (fun q => Qltb 0 q)
                    (required kwargs "weight" (validate_float lax_float))
                  = None)
        by now rewrite Hnone.
      field_fails H.
    + destruct Hk.
  - intros v a Hget Hconv Hrange.
    assert (H : constrain (fun z => (0 <? z)%Z && (z <? 120)%Z)
                  (required kwargs "age" (validate_int lax_int)) = None).
    { unfold required. rewrite Hget, Hconv. simpl.
      destruct Hrange as [Hr|Hr].
      - now rewrite (proj2 (Z.ltb_ge 0 a) Hr).
      - rewrite (proj2 (Z.ltb_ge a 120) Hr). now rewrite andb_false_r. }
    field_fails H.
  - intros v Hget Hno.
    assert (H : required kwargs "gender" validate_gender = None).
    { unfold required. rewrite Hget.
      destruct (validate_gender v) as [g|] eqn:E; [|reflexivity].
      apply validate_gender_Some in E. now apply Hno in E. }
    field_fails H.
  - intros v h Hget Hconv Hle.
    assert (H : constrain (fun q => Qltb 0 q)
                  (required kwargs "height" (validate_float lax_float))
                = None).
    { unfold required. rewrite Hget, Hconv. simpl.
      now rewrite (proj2 (Qltb_ge 0 h) Hle). }
    field_fails H.
  - intros v w Hget Hconv Hle.
    assert (H : constrain (fun q => Qltb 0 q)
                  (required kwargs "weight" (validate_float lax_float))
                = None).
    { unfold required. rewrite Hget, Hconv. simpl.
      now rewrite (proj2 (Qltb_ge 0 w) Hle). }
    field_fails H.
  - intros p s Hv. apply validate_inr in Hv.
    destruct Hv as (Hi & Hn & Hc & Ha & Hg & Hh & Hw).
    split; apply validate_inr; simpl; unfold required in *;
      rewrite ?PyDictFacts.get_set_same,
        ?PyDictFacts.get_set_other by discriminate;
      repeat split; assumption || reflexivity.
  - intros loc data Hv. unfold post_create. now rewrite Hv.
Qed.

(** ** Update *)

Lemma get_update_dump_field {A} (k k' : string) (inj : A -> value)
    (f : field_state A) (d : record) :
  PyDict.get k (PyDict.update (PatientUpdate.dump_field k' inj f) d)
  = if String.eqb k' k then after_field inj f (PyDict.get k d)
    else PyDict.get k d.
Proof.
  destruct (String.eqb_spec k' k) as [->|Hne];
    destruct f; simpl; unfold PyDict.update; simpl;
    rewrite ?PyDictFacts.get_set_same, ?PyDictFacts.get_set_other by assumption;
    reflexivity.
Qed.


Ltac through_update :=
  unfold merged_kwargs, PatientUpdate.model_dump_exclude_unset;
  rewrite ?PyDictFacts.get_set_other by discriminate;
  rewrite ?PyDictFacts.update_app;
  rewrite !get_update_dump_field;
  reflexivity.

Lemma merged_gets (patient_id : string) (u : PatientUpdate.t) (old : record) :
  let kw := merged_kwargs patient_id u old in
  PyDict.get "id" kw = Some (VStr patient_id)
  /\ PyDict.get "name" kw
     = after_field VStr (PatientUpdate.name u) (PyDict.get "name" old)
  /\ PyDict.get "city" kw
     = after_field VStr (PatientUpdate.city u) (PyDict.get "city" old)
  /\ PyDict.get "age" kw
     = after_field VInt (PatientUpdate.age u) (PyDict.get "age" old)
  /\ PyDict.get "gender" kw
     = after_field (fun g => VStr (Gender_str g)) (PatientUpdate.gender u)
         (PyDict.get "gender" old)
  /\ PyDict.get "height" kw
     = after_field VFloat (PatientUpdate.height u) (PyDict.get "height" old)
  /\ PyDict.get "weight" kw
     = after_field VFloat (PatientUpdate.weight u) (PyDict.get "weight" old).
Proof.
  simpl. split; [apply PyDictFacts.get_set_same|].
  repeat split; through_update.
Qed.

Lemma validate_gender_str (g : Gender) :
  validate_gender (VStr (Gender_str g)) = Some g.
Proof. now destruct g. Qed.

Lemma constrain_age (a : Z) :
  (0 < a < 120)%Z ->
  constrain (fun z => (0 <? z)%Z && (z <? 120)%Z) (Some a) = Some a.
Proof.
  intros [H1 H2]. simpl.
  now rewrite (proj2 (Z.ltb_lt 0 a) H1), (proj2 (Z.ltb_lt a 120) H2).
Qed.

Lemma constrain_positive (q : Q) :
  0 < q -> constrain (fun q => Qltb 0 q) (Some q) = Some q.
Proof.
  intros H. simpl. now rewrite (proj2 (Qltb_lt 0 q) H).
Qed.






End HandlerFacts.

(** ** Sorting *)

Section SortFacts.
Variable A : Type.
Variable key : A -> value.

Lemma insert_perm (x : A) (l l' : list A) :
  insert key x l = Some l' -> Permutation l' (x :: l).
Proof.
  revert l'. induction l as [|y l IH]; simpl; intros l' H.
  - inversion H. apply Permutation_refl.
  - destruct (py_lt (key y) (key x)) as [[|]|]; try discriminate.
    + destruct (insert key x l) as [l''|]; try discriminate.
      inversion H. subst l'.
      apply perm_trans with (y :: x :: l); [|apply perm_swap].
      apply perm_skip. now apply IH.
    + inversion H. apply Permutation_refl.
Qed.

Lemma sort_perm (l l' : list A) : sort key l = Some l' -> Permutation l' l.
Proof.
  revert l'. induction l as [|x l IH]; simpl; intros l' H.
  - inversion H. apply perm_nil.
  - destruct (sort key l) as [s|]; try discriminate.
    apply insert_perm in H.
    apply perm_trans with (x :: s); [exact H|].
    apply perm_skip. now apply IH.
Qed.

Lemma sorted_perm (l l' : list A) (reverse : bool) :
  sorted key l reverse = Some l' -> Permutation l' l.
Proof.
  unfold sorted. destruct reverse; [|apply sort_perm].
  destruct (sort key (rev l)) as [s|] eqn:E; simpl; try discriminate.
  intros H. inversion H. subst l'. apply sort_perm in E.
  apply perm_trans with s; [apply Permutation_sym, Permutation_rev|].
  apply perm_trans with (rev l); [exact E|].
  apply Permutation_sym, Permutation_rev.
Qed.

(** From here on the keys are numbers, [num x] for the element [x]. *)
Variable num : A -> Q.

Lemma py_lt_numeric (a b : value) (x y : Q) :
  numeric a = Some x -> numeric b = Some y ->
  py_lt a b = Some (Qltb x y).
Proof.
  intros Ha Hb. unfold py_lt.
  destruct a; try discriminate Ha; rewrite Ha;
    destruct b; try discriminate Hb; rewrite Hb; reflexivity.
Qed.

Lemma insert_numeric (x : A) (l : list A) :
  numeric_keys key num (x :: l) ->
  exists l',
    insert key x l = Some l'
    /\ (StronglySorted (ascending num) l -> StronglySorted (ascending num) l')
    /\ forall q, filter (has_key num q) l' = filter (has_key num q) (x :: l).
Proof.
  induction l as [|y l IH]; intros Hnum.
  - exists [x]. repeat split. intros _. repeat constructor.
  - simpl.
    rewrite (@py_lt_numeric _ _ _ _
               (Hnum y (or_intror (or_introl eq_refl)))
               (Hnum x (or_introl eq_refl))).
    destruct (Qltb (num y) (num x)) eqn:Hlt.
    + apply Qltb_lt in Hlt.
      destruct IH as (l' & Hins & Hsorted & Hstable).
      { intros z [Hz|Hz]; apply Hnum; simpl; auto. }
      rewrite Hins. exists (y :: l'). split; [reflexivity|]. split.
      * intros Hs. inversion Hs as [|? ? Hs' Hall]; subst.
        constructor; [auto|].
        apply insert_perm in Hins.
        apply (Permutation_Forall (Permutation_sym Hins)).
        constructor; [|exact Hall].
        unfold ascending. now apply Qlt_le_weak.
      * intros q. simpl. rewrite Hstable. simpl.
        unfold has_key.
        destruct (Qeq_bool (num y) q) eqn:Ey;
          destruct (Qeq_bool (num x) q) eqn:Ex; try reflexivity.
        apply Qeq_bool_iff in Ey, Ex. exfalso.
        rewrite Ey, Ex in Hlt. exact (Qlt_irrefl _ Hlt).
    + apply Qltb_ge in Hlt.
      exists (x :: y :: l). repeat split.
      intros Hs. constructor; [exact Hs|].
      inversion Hs as [|? ? Hs' Hall]; subst.
      constructor; [exact Hlt|].
      apply Forall_impl with (2 := Hall).
      intros z Hz. unfold ascending in *. now apply Qle_trans with (num y).
Qed.

Lemma sort_numeric (l : list A) :
  numeric_keys key num l ->
  exists l',
    sort key l = Some l'
    /\ StronglySorted (ascending num) l'
    /\ forall q, filter (has_key num q) l' = filter (has_key num q) l.
Proof.
  induction l as [|x l IH]; intros Hnum.
  - exists []. repeat split. constructor.
  - destruct IH as (s & Hsort & Hsorted & Hstable).
    { intros z Hz. apply Hnum. now right. }
    destruct (@insert_numeric x s) as (l' & Hins & Hsorted' & Hstable').
    { intros z [Hz|Hz]; apply Hnum; [now left | right].
      apply sort_perm in Hsort. now apply (Permutation_in _ Hsort). }
    exists l'. simpl. rewrite Hsort. split; [exact Hins|].
    split; [auto|].
    intros q. rewrite Hstable'. simpl. now rewrite Hstable.
Qed.

Lemma StronglySorted_snoc (R : A -> A -> Prop) (l : list A) (x : A) :
  StronglySorted R l -> Forall (fun y => R y x) l ->
  StronglySorted R (l ++ [x]).
Proof.
  induction 1 as [|y l Hs IH Hall]; simpl; intros Hx.
  - repeat constructor.
  - inversion Hx; subst. constructor; [auto|].
    apply Forall_app. split; [exact Hall | now constructor].
Qed.

Lemma StronglySorted_rev (l : list A) :
  StronglySorted (ascending num) l -> StronglySorted (descending num) (rev l).
Proof.
  induction 1 as [|x l Hs IH Hall]; simpl.
  - constructor.
  - apply StronglySorted_snoc; [exact IH|].
    apply Forall_rev. exact Hall.
Qed.

(** On numeric keys [sorted] succeeds; its result is in order, ascending
    or, with [reverse], descending, and elements with equal keys keep the
    order they had. *)
Lemma sorted_numeric (l : list A) (reverse : bool) :
  numeric_keys key num l ->
  exists l',
    sorted key l reverse = Some l'
    /\ StronglySorted (if reverse then descending num else ascending num) l'
    /\ forall q, filter (has_key num q) l' = filter (has_key num q) l.
Proof.
  intros Hnum. unfold sorted. destruct reverse.
  - destruct (@sort_numeric (rev l)) as (s & Hsort & Hsorted & Hstable).
    { intros z Hz. apply Hnum. now apply in_rev. }
    exists (rev s). rewrite Hsort. split; [reflexivity|].
    split; [now apply StronglySorted_rev|].
    intros q. now rewrite filter_rev, Hstable, filter_rev, rev_involutive.
  - now apply sort_numeric.
Qed.
End SortFacts.

Lemma numeric_field_key (sort_by : string) (l : list record) :
  (forall r, In r l -> numeric_field sort_by r) ->
  numeric_keys (fun x => PyDict.get_default sort_by (VInt 0) x)
    (sort_key sort_by) l.
Proof.
  intros H r Hr. specialize (H r Hr).
  unfold numeric_field in H. unfold PyDict.get_default, sort_key.
  destruct (PyDict.get sort_by r) as [v|]; [|reflexivity].
  specialize (H v eq_refl). now destruct (numeric v).
Qed.

Lemma existsb_eqb (s : string) (l : list string) :
  existsb (String.eqb s) l = true <-> In s l.
Proof.
  rewrite existsb_exists. split.
  - intros (x & Hx & E). apply String.eqb_eq in E. now subst.
  - intros H. exists s. split; [exact H | apply String.eqb_refl].
Qed.

(** C8: for a sort field among height, weight and bmi and an order that is
    absent, asc or desc, over records whose field, where present, is a
    number, the sort returns the stored records, each once, ordered by the
    number under that field with 0 for a record without it, ascending
    unless the order is desc and then descending, records with equal
    numbers in the order the document has them; for any other field or
    order it raises the 400 error.  The document is not changed. *)
Theorem sort_patient_orders (data : store) (sort_by : string)
    (order : option string) :
  (In sort_by valid_fields ->
   In order [None; Some "asc"; Some "desc"] ->
   (forall r, In r (PyDict.values data) -> numeric_field sort_by r) ->
   exists out,
     sort_patient sort_by order data = (inr out, data)
     /\ Permutation out (PyDict.values data)
     /\ StronglySorted
          (if is_desc order then descending (sort_key sort_by)
           else ascending (sort_key sort_by)) out
     /\ forall q,
          filter (has_key (sort_key sort_by) q) out
          = filter (has_key (sort_key sort_by) q) (PyDict.values data))
  /\ (~ In sort_by valid_fields
      \/ ~ In order [None; Some "asc"; Some "desc"] ->
      exists detail,
        sort_patient sort_by order data
        = (inl (HTTPException 400 detail), data)).
Proof.
  split.
  - intros Hfield Horder Hnum.
    apply existsb_eqb in Hfield.
    apply numeric_field_key in Hnum.
    destruct (@sorted_numeric _ _ _ _ (is_desc order) Hnum)
      as (out & Hsorted & Hord & Hstable).
    exists out.
    assert (Hrun : sort_patient sort_by order data = (inr out, data)).
    { unfold sort_patient. rewrite Hfield. simpl negb. cbv iota.
      simpl in Horder.
      destruct Horder as [<-|[<-|[<-|[]]]]; simpl in *;
        unfold bind, load_data, ret; now rewrite Hsorted. }
    repeat split; try assumption.
    eapply sorted_perm. exact Hsorted.
  - intros Hbad. unfold sort_patient.
    destruct (existsb (String.eqb sort_by) valid_fields) eqn:Ef;
      [|eexists; reflexivity].
    destruct (existsb (String.eqb
                match order with Some o => o | None => "asc" end)
                ["asc"; "desc"]) eqn:Eo;
      [|eexists; reflexivity].
    exfalso. destruct Hbad as [Hbad|Hbad]; apply Hbad.
    + now apply existsb_eqb.
    + apply existsb_eqb in Eo. simpl in Eo. simpl.
      destruct order as [o|]; [|tauto].
      destruct Eo as [<-|[<-|[]]]; tauto.
Qed.

(** C9: what the sort returns is the list of the stored field objects in
    another order: it is a permutation of the values of the document, so a
    document with the same records under other identifiers gives the same
    result; and when the records are in stored form each returned object
    has the keys name, city, age, gender, height, weight, bmi, verdict and
    no key [id]. *)
Theorem sort_returns_field_objects (data data' : store) (sort_by : string)
    (order : option string) (out : list record) :
  sort_patient sort_by order data = (inr out, data') ->
  Permutation out (PyDict.values data)
  /\ (forall other,
        PyDict.values other = PyDict.values data ->
        fst (sort_patient sort_by order other) = inr out)
  /\ (store_ok data ->
      forall r, In r out ->
        PyDict.keys r = record_fields /\ ~ In "id" (PyDict.keys r)).
Proof.
  intros Hrun.
  assert (Hsorted :
    sorted (fun x => PyDict.get_default sort_by (VInt 0) x)
      (PyDict.values data)
      (if String.eqb match order with Some o => o | None => "asc" end "desc"
       then true else false) = Some out
    /\ existsb (String.eqb sort_by) valid_fields = true
    /\ existsb (String.eqb match order with Some o => o | None => "asc" end)
         ["asc"; "desc"] = true).
  { unfold sort_patient in Hrun.
    destruct (existsb (String.eqb sort_by) valid_fields);
      [|discriminate Hrun].
    destruct (existsb _ ["asc"; "desc"]); [|discriminate Hrun].
    simpl in Hrun. unfold bind, load_data, ret, raise in Hrun.
    match type of Hrun with
    | context [sorted ?k ?l ?b] => destruct (sorted k l b) as [s|]
    end; [|discriminate Hrun].
    inversion Hrun. auto. }
  destruct Hsorted as (Hsorted & Hf & Ho).
  pose proof (sorted_perm _ _ _ Hsorted) as Hperm.
  split; [exact Hperm|split].
  - intros other Hsame. unfold sort_patient. rewrite Hf, Ho. simpl.
    unfold bind, load_data, ret. now rewrite Hsame, Hsorted.
  - intros Hok r Hr.
    assert (Hk : PyDict.keys r = record_fields).
    { apply stored_form_keys, Hok.
      now apply (Permutation_in _ Hperm). }
    split; [exact Hk|].
    rewrite Hk. simpl. intros H.
    repeat (destruct H as [H|H]; [discriminate|]). exact H.
Qed.

(** ** The properties at the sample data *)



Lemma construction_validates_witness :
  exists loc,
    Patient_validate strict_int strict_float
      (PyDict.set "age" (VInt 120) john_kwargs) = inl loc
    /\ In "age" loc.
Proof.
  apply (proj1 (proj2 (construction_validates strict_int strict_float
                         (PyDict.set "age" (VInt 120) john_kwargs))))
    with (v := VInt 120) (a := 120%Z).
  - reflexivity.
  - reflexivity.
  - right. lia.
Defined.

(** The constructor accepts an empty name: the claim that it fails on one
    does not hold. *)
Lemma empty_name_is_accepted :
  PyDict.get "name" nameless_kwargs = Some (VStr "")
  /\ ~ exists loc,
         Patient_validate strict_int strict_float nameless_kwargs = inl loc.
Proof.
  split; [reflexivity|].
  intros [loc H]. vm_compute in H. discriminate H.
Qed.




Lemma create_existing_conflict_witness :
  create_patient john one_patient
  = (inl (HTTPException 400 "Patient with this ID already exists"),
     one_patient).
Proof.
  apply (@create_existing_conflict strict_int strict_float one_patient john).
  reflexivity.
Defined.

Lemma absent_id_not_found_witness :
  delete_patient "P404" one_patient
  = (inl (HTTPException 404 "Patient not found"), one_patient).
Proof.
  apply (@absent_id_not_found strict_int strict_float one_patient "P404").
  reflexivity.
Defined.

Lemma delete_removes_only_that_entry_witness :
  exists data',
    delete_patient "P001" three_patients
    = (inr (JSONResponse 200 "Patient deleted successfully"), data')
    /\ PyDict.get "P001" data' = None
    /\ (forall k, k <> "P001" ->
          PyDict.get k data' = PyDict.get k three_patients)
    /\ (PyDict.wf three_patients ->
        PyDict.wf data'
        /\ S (List.length data') = List.length three_patients).
Proof.
  apply (@delete_removes_only_that_entry three_patients "P001").
  reflexivity.
Defined.

Lemma sort_patient_orders_witness :
  exists out,
    sort_patient "height" None three_patients = (inr out, three_patients)
    /\ Permutation out (PyDict.values three_patients)
    /\ StronglySorted (ascending (sort_key "height")) out
    /\ forall q,
         filter (has_key (sort_key "height") q) out
         = filter (has_key (sort_key "height") q)
             (PyDict.values three_patients).
Proof.
  apply (proj1 (sort_patient_orders three_patients "height" None)).
  - simpl. auto.
  - simpl. auto.
  - intros r Hr v Hv. simpl in Hr.
    destruct Hr as [<-|[<-|[<-|[]]]]; vm_compute in Hv;
      inversion Hv; discriminate.
Defined.

Lemma sort_returns_field_objects_witness :
  Permutation
    [Patient.model_dump_exclude_id john;
     Patient.model_dump_exclude_id (with_height 1.6 john);
     Patient.model_dump_exclude_id (with_height 1.8 john)]
    (PyDict.values three_patients).
Proof.
  apply (@sort_returns_field_objects three_patients three_patients
           "height" (Some "asc")).
  vm_compute. reflexivity.
Defined.

(** The records with heights 1.5, 1.8 and 1.6 come back in the order 1.5,
    1.6, 1.8, and with [desc] in the order 1.8, 1.6, 1.5. *)
Example sort_by_height :
  fst (sort_patient "height" (Some "asc") three_patients)
  = inr [Patient.model_dump_exclude_id john;
         Patient.model_dump_exclude_id (with_height 1.6 john);
         Patient.model_dump_exclude_id (with_height 1.8 john)]
  /\ fst (sort_patient "height" (Some "desc") three_patients)
     = inr [Patient.model_dump_exclude_id (with_height 1.8 john);
            Patient.model_dump_exclude_id (with_height 1.6 john);
            Patient.model_dump_exclude_id john].
Proof.
  split; vm_compute; reflexivity.
Qed.

(** Ages 0 and 120, height 0 and the gender [unknown] are rejected, each
    under its own name. *)
Example boundaries_are_rejected :
  Patient_validate strict_int strict_float
    (PyDict.set "age" (VInt 0) john_kwargs) = inl ["age"]
  /\ Patient_validate strict_int strict_float
       (PyDict.set "age" (VInt 120) john_kwargs) = inl ["age"]
  /\ Patient_validate strict_int strict_float
       (PyDict.set "height" (VInt 0) john_kwargs) = inl ["height"]
  /\ Patient_validate strict_int strict_float
       (PyDict.set "gender" (VStr "unknown") john_kwargs) = inl ["gender"].
Proof.
  repeat split.
Qed.

(** Creating a patient and fetching it returns the fields given, with the
    derived ones; a bmi sent along is not the one stored. *)
Example create_then_view :
  view_patient "P001"
    (run strict_int strict_float [Create john_kwargs_with_bmi] [])
  = (inr (Patient.model_dump_exclude_id john),
     [("P001", Patient.model_dump_exclude_id john)])
  /\ PyDict.get "bmi" (Patient.model_dump_exclude_id john)
     = Some (VFloat 24.89).
Proof.
  split; vm_compute; reflexivity.
Qed.

(** * Further properties of the handlers *)

(** ** More on dictionaries *)

Module PyDictMore.
Import PyDict.
Section Facts.
Variable V : Type.
Implicit Types (d : dict V) (k : string) (v : V).


Lemma set_same_value k v d : get k d = Some v -> set k v d = d.
Proof.
  induction d as [|[k' v'] d IH]; simpl; [discriminate|].
  destruct (String.eqb_spec k k') as [->|Hne].
  - intros H. now inversion H.
  - intros H. now rewrite IH.
Qed.


Lemma keys_set_present k v d : get k d <> None -> keys (set k v d) = keys d.
Proof.
  intros H. rewrite PyDictFacts.keys_set. unfold contains.
  now destruct (get k d).
Qed.
End Facts.
End PyDictMore.

(** ** Creating, reading back, deleting *)

Section MoreHandlerFacts.
Variable lax_int : value -> option Z.
Variable lax_float : value -> option Q.

Local Abbreviation validate := (Patient_validate lax_int lax_float).
Local Abbreviation update := (update_patient lax_int lax_float).
Local Abbreviation create := (post_create lax_int lax_float).
Local Abbreviation handle' := (handle lax_int lax_float).



(** X3: a create, update or delete request that ends in an error, whichever
    it is, has written nothing: the document is the one it found. *)
Theorem failed_request_writes_nothing (req : request) (data : store)
    (e : error) :
  fst (handle' req data) = inl e -> snd (handle' req data) = data.
Proof.
  destruct req as [body | patient_id patient_update | patient_id]; simpl.
  - unfold post_create.
    destruct (validate body) as [loc|p]; [reflexivity|].
    unfold create_patient, bind, load_data, save_data, raise, ret.
    destruct (PyDict.contains (Patient.id p) data); simpl;
      [reflexivity | discriminate].
  - unfold update_patient, bind, load_data, save_data, raise, ret.
    destruct (PyDict.get patient_id data) as [existing|];
      [|reflexivity].
    match goal with
    | |- context [Patient_validate _ _ ?kw] =>
        destruct (validate kw) as [loc|p]
    end; simpl; [reflexivity | discriminate].
  - unfold delete_patient, bind, load_data, save_data, raise, ret.
    destruct (PyDict.contains patient_id data); simpl;
      [discriminate | reflexivity].
Qed.

(** X4: whatever its body and its outcome, a create request leaves every
    record that was in the document under its identifier: it never
    overwrites or removes one. *)
Theorem create_keeps_existing (body : record) (data : store)
    (k : string) (r : record) :
  PyDict.get k data = Some r ->
  PyDict.get k (snd (create body data)) = Some r.
Proof.
  intros Hget. unfold post_create.
  destruct (validate body) as [loc|p]; [exact Hget|].
  unfold create_patient, bind, load_data, save_data, raise, ret.
  destruct (PyDict.contains (Patient.id p) data) eqn:Hc; simpl;
    [exact Hget|].
  rewrite PyDictFacts.get_set_other; [exact Hget|].
  intros <-. apply PyDictFacts.not_contains_get in Hc. congruence.
Qed.

(** X5: whatever its outcome, an update request leaves the identifiers of
    the document and their order as they were, and the record of every
    identifier other than its own. *)
Theorem update_keeps_identifiers (patient_id : string)
    (patient_update : PatientUpdate.t) (data : store) :
  PyDict.keys (snd (update patient_id patient_update data))
  = PyDict.keys data
  /\ forall k,
       k <> patient_id ->
       PyDict.get k (snd (update patient_id patient_update data))
       = PyDict.get k data.
Proof.
  unfold update_patient, bind, load_data, save_data, raise, ret.
  destruct (PyDict.get patient_id data) as [existing|] eqn:Hget;
    [|split; reflexivity].
  match goal with
  | |- context [Patient_validate _ _ ?kw] =>
      destruct (validate kw) as [loc|p]
  end; simpl; [split; reflexivity|].
  split.
  - apply PyDictMore.keys_set_present. congruence.
  - intros k Hk. apply PyDictFacts.get_set_other. congruence.
Qed.

(** X6: after a successful delete the identifier is unknown: get, update
    and delete on it each raise the 404 error. *)
Theorem deleted_id_is_not_found (patient_id : string) (data data' : store)
    (resp : response) :
  delete_patient patient_id data = (inr resp, data') ->
  view_patient patient_id data'
  = (inl (HTTPException 404 "Patient not found"), data')
  /\ (forall patient_update,
        update patient_id patient_update data'
        = (inl (HTTPException 404 "Patient not found"), data'))
  /\ delete_patient patient_id data'
     = (inl (HTTPException 404 "Patient not found"), data').
Proof.
  unfold delete_patient at 1.
  unfold bind, load_data, save_data, raise, ret.
  destruct (PyDict.contains patient_id data); simpl; [|discriminate].
  intros H. inversion H. subst data'. clear H.
  pose proof (PyDictFacts.get_del_same patient_id data) as Hget.
  split; [|split].
  - unfold view_patient, bind, load_data, raise. now rewrite Hget.
  - intros u. unfold update_patient, bind, load_data, raise.
    now rewrite Hget.
  - unfold delete_patient, bind, load_data, raise, PyDict.contains.
    now rewrite Hget.
Qed.

(** X7: a successful update stores the dump of a valid patient, whatever
    shape the record had before: the stored record has the eight keys
    name, city, age, gender, height, weight, bmi, verdict in this order,
    so neither a key the old record had beside them nor the [id] the
    handler puts into the record before validating it is persisted. *)
Theorem update_normalises_record (patient_id : string)
    (patient_update : PatientUpdate.t) (data data' : store)
    (resp : response) :
  update patient_id patient_update data = (inr resp, data') ->
  exists p,
    Patient.ok p
    /\ Patient.id p = patient_id
    /\ PyDict.get patient_id data' = Some (Patient.model_dump_exclude_id p)
    /\ PyDict.keys (Patient.model_dump_exclude_id p) = record_fields
    /\ resp = JSONResponse 200 "Patient updated successfully".
Proof.
  unfold update_patient, bind, load_data, save_data, raise, ret.
  destruct (PyDict.get patient_id data) as [existing|]; [|discriminate].
  match goal with
  | |- context [Patient_validate _ _ ?kw] =>
      destruct (validate kw) as [loc|p] eqn:Hv
  end; simpl; [discriminate|].
  intros H. inversion H. subst. exists p.
  split; [now apply validate_ok in Hv|].
  split.
  - apply validate_inr in Hv. destruct Hv as (Hi & _).
    unfold required in Hi. rewrite PyDictFacts.get_set_same in Hi.
    simpl in Hi. now inversion Hi.
  - split; [apply PyDictFacts.get_set_same|]. split; reflexivity.
Qed.



(** Validation of the merged keywords gives the same patient when the
    stored record is replaced by the dump of that patient. *)
Lemma revalidate_merged (patient_id : string) (u : PatientUpdate.t)
    (old : record) (p : Patient.t) :
  validate (merged_kwargs patient_id u old) = inr p ->
  validate (merged_kwargs patient_id u (Patient.model_dump_exclude_id p))
  = inr p.
Proof.
  intros Hv. pose proof Hv as Hok. apply validate_ok in Hok.
  destruct Hok as (Hoa & Hoh & How).
  apply validate_inr in Hv. apply validate_inr.
  destruct Hv as (Hi & Hn & Hc & Ha & Hg & Hh & Hw).
  unfold required in *.
  destruct (merged_gets patient_id u old)
    as (Gi & Gn & Gc & Ga & Gg & Gh & Gw).
  destruct (merged_gets patient_id u (Patient.model_dump_exclude_id p))
    as (Ki & Kn & Kc & Ka & Kg & Kh & Kw).
  rewrite Gi in Hi. rewrite Gn in Hn. rewrite Gc in Hc. rewrite Ga in Ha.
  rewrite Gg in Hg. rewrite Gh in Hh. rewrite Gw in Hw.
  rewrite Ki, Kn, Kc, Ka, Kg, Kh, Kw. simpl.
  split; [exact Hi|].
  split; [destruct (PatientUpdate.name u); [reflexivity | | ]; exact Hn|].
  split; [destruct (PatientUpdate.city u); [reflexivity | | ]; exact Hc|].
  split.
  { destruct (PatientUpdate.age u); [now apply constrain_age | | ];
      exact Ha. }
  split.
  { destruct (PatientUpdate.gender u);
      [apply validate_gender_str | | ]; exact Hg. }
  split.
  - destruct (PatientUpdate.height u);
      [now apply constrain_positive | | ]; exact Hh.
  - destruct (PatientUpdate.weight u);
      [now apply constrain_positive | | ]; exact Hw.
Qed.

(** X9: a successful update is idempotent: sending the same update again
    succeeds again and leaves the document as the first one left it. *)
Theorem update_is_idempotent (patient_id : string)
    (patient_update : PatientUpdate.t) (data data' : store)
    (resp : response) :
  update patient_id patient_update data = (inr resp, data') ->
  update patient_id patient_update data' = (inr resp, data').
Proof.
  unfold update_patient at 1.
  unfold bind, load_data, save_data, raise, ret.
  destruct (PyDict.get patient_id data) as [existing|]; [|discriminate].
  fold (merged_kwargs patient_id patient_update existing).
  destruct (validate (merged_kwargs patient_id patient_update existing))
    as [loc|p] eqn:Hv; simpl; [discriminate|].
  intros H. inversion H. subst resp.
  set (new := Patient.model_dump_exclude_id p) in *.
  assert (Hget : PyDict.get patient_id (PyDict.set patient_id new data)
                 = Some new) by apply PyDictFacts.get_set_same.
  unfold update_patient, bind, load_data, save_data, raise, ret.
  rewrite Hget.
  fold (merged_kwargs patient_id patient_update new).
  unfold new at 1. rewrite (revalidate_merged _ _ _ Hv). simpl.
  fold new. now rewrite (PyDictMore.set_same_value _ _ Hget).
Qed.


End MoreHandlerFacts.

(** ** More on sorting *)

Section SortMore.
Variable A : Type.
Variable key : A -> value.
Variable num : A -> Q.

Lemma has_key_self (a : A) : has_key num (num a) a = true.
Proof.
  unfold has_key. apply Qeq_bool_iff. reflexivity.
Qed.

Lemma filter_has_key_In (l1 l2 : list A) (b : A) :
  (forall q, filter (has_key num q) l1 = filter (has_key num q) l2) ->
  In b l2 -> In b l1.
Proof.
  intros H Hb.
  assert (Hin : In b (filter (has_key num (num b)) l2))
    by (apply filter_In; split; [exact Hb | apply has_key_self]).
  rewrite <- H in Hin. now apply filter_In in Hin.
Qed.

(** A list in ascending order is determined by its elements of each key,
    taken in their order. *)
Lemma ascending_unique (l1 : list A) :
  forall l2,
    StronglySorted (ascending num) l1 ->
    StronglySorted (ascending num) l2 ->
    (forall q, filter (has_key num q) l1 = filter (has_key num q) l2) ->
    l1 = l2.
Proof.
  induction l1 as [|a l1 IH]; intros l2 Hs1 Hs2 Hf.
  - destruct l2 as [|b l2]; [reflexivity|].
    specialize (Hf (num b)). simpl in Hf.
    rewrite has_key_self in Hf. discriminate Hf.
  - destruct l2 as [|b l2].
    { specialize (Hf (num a)). simpl in Hf.
      rewrite has_key_self in Hf. discriminate Hf. }
    inversion Hs1 as [|? ? Hs1' Hall1]; subst.
    inversion Hs2 as [|? ? Hs2' Hall2]; subst.
    assert (Hab : num a <= num b).
    { assert (Hb : In b (a :: l1))
        by (apply filter_has_key_In with (l2 := b :: l2);
            [exact Hf | now left]).
      destruct Hb as [->|Hb]; [apply Qle_refl|].
      rewrite Forall_forall in Hall1. now apply Hall1. }
    assert (Hba : num b <= num a).
    { assert (Ha : In a (b :: l2)).
      { apply filter_has_key_In with (l2 := a :: l1); [|now left].
        intros q. symmetry. apply Hf. }
      destruct Ha as [->|Ha]; [apply Qle_refl|].
      rewrite Forall_forall in Hall2. now apply Hall2. }
    assert (Heq : a = b).
    { pose proof (Hf (num a)) as H. simpl in H.
      rewrite has_key_self in H.
      assert (E : has_key num (num a) b = true)
        by (apply Qeq_bool_iff; now apply Qle_antisym).
      rewrite E in H. now inversion H. }
    subst b. f_equal. apply IH; try assumption.
    intros q. specialize (Hf q). simpl in Hf.
    destruct (has_key num q a); [now inversion Hf | exact Hf].
Qed.

Lemma descending_rev (l : list A) :
  StronglySorted (descending num) l ->
  StronglySorted (ascending num) (rev l).
Proof.
  induction 1 as [|x l Hs IH Hall]; simpl.
  - constructor.
  - apply StronglySorted_snoc; [exact IH|].
    apply Forall_rev. exact Hall.
Qed.

(** On numeric keys the result of [sorted] is the only list in the order
    asked for that keeps the elements of each key in their order. *)
Lemma sorted_determined (l out : list A) (reverse : bool) :
  numeric_keys key num l ->
  StronglySorted (if reverse then descending num else ascending num) out ->
  (forall q, filter (has_key num q) out = filter (has_key num q) l) ->
  sorted key l reverse = Some out.
Proof.
  intros Hnum Hs Hf.
  destruct (@sorted_numeric _ key num l reverse Hnum)
    as (s & Hsorted & Hs' & Hf').
  rewrite Hsorted. f_equal.
  destruct reverse.
  - rewrite <- (rev_involutive s), <- (rev_involutive out). f_equal.
    apply ascending_unique; try now apply descending_rev.
    intros q. now rewrite !filter_rev, Hf, Hf'.
  - apply ascending_unique; try assumption.
    intros q. now rewrite Hf, Hf'.
Qed.

Lemma py_lt_None_l (v : value) : py_lt VNone v = None.
Proof. now destruct v. Qed.

Lemma py_lt_None_r (v : value) : py_lt v VNone = None.
Proof. now destruct v. Qed.

(** With two elements or more, one of them under the key [None], sorting
    asks [<] of [None] and fails. *)
Lemma sort_None_key (l : list A) :
  (exists x, In x l /\ key x = VNone) ->
  (2 <= List.length l)%nat ->
  sort key l = None.
Proof.
  induction l as [|x l IH]; simpl; intros (z & Hz & Hk) Hlen; [lia|].
  destruct (sort key l) as [s|] eqn:Hs; [|reflexivity].
  pose proof (sort_perm _ _ Hs) as Hperm.
  destruct s as [|y s].
  { apply Permutation_length in Hperm. simpl in Hperm. lia. }
  simpl.
  destruct Hz as [->|Hz].
  - now rewrite Hk, py_lt_None_r.
  - destruct l as [|z1 [|z2 l]].
    + destruct Hz.
    + destruct Hz as [->|[]]. simpl in Hs. inversion Hs. subst.
      now rewrite Hk, py_lt_None_l.
    + assert (Habs : Some (y :: s) = None)
        by (apply IH; [eauto | simpl; lia]).
      discriminate Habs.
Qed.

Lemma sorted_None_key (l : list A) (reverse : bool) :
  (exists x, In x l /\ key x = VNone) ->
  (2 <= List.length l)%nat ->
  sorted key l reverse = None.
Proof.
  intros (z & Hz & Hk) Hlen. unfold sorted. destruct reverse.
  - rewrite sort_None_key; [reflexivity | | now rewrite length_rev].
    exists z. split; [now apply in_rev in Hz | exact Hk].
  - apply sort_None_key; eauto.
Qed.
End SortMore.

(** What [sort_patient] does once the field and the order are accepted. *)
Lemma sort_patient_valid (sort_by : string) (order : option string)
    (data : store) :
  In sort_by valid_fields ->
  In order [None; Some "asc"; Some "desc"] ->
  sort_patient sort_by order data
  = match sorted (fun x => PyDict.get_default sort_by (VInt 0) x)
            (PyDict.values data) (is_desc order) with
    | Some out => (inr out, data)
    | None => (inl TypeError, data)
    end.
Proof.
  intros Hfield Horder. apply existsb_eqb in Hfield.
  unfold sort_patient. rewrite Hfield. simpl in Horder.
  destruct Horder as [<-|[<-|[<-|[]]]]; cbn -[sorted];
    unfold bind, load_data, ret, raise;
    match goal with
    | |- context [sorted ?k ?l ?b] => now destruct (sorted k l b)
    end.
Qed.

Lemma stored_form_numeric_field (sort_by : string) (r : record) :
  In sort_by valid_fields -> stored_form r -> numeric_field sort_by r.
Proof.
  intros Hf (p & _ & ->) v. simpl in Hf.
  destruct Hf as [<-|[<-|[<-|[]]]]; simpl; intros H; inversion H;
    discriminate.
Qed.

Lemma rev_short {A} (l : list A) : (List.length l <= 1)%nat -> rev l = l.
Proof.
  destruct l as [|a [|b l]]; simpl; intros H; try reflexivity. lia.
Qed.

(** X11: for an accepted field and order, over records whose field is a
    number where present, the list the sort returns is the only list in
    the order asked for that keeps records of equal sort key in document
    order: whatever list has these two properties is the result. *)
Theorem sort_result_is_determined (data : store) (sort_by : string)
    (order : option string) (out : list record) :
  In sort_by valid_fields ->
  In order [None; Some "asc"; Some "desc"] ->
  (forall r, In r (PyDict.values data) -> numeric_field sort_by r) ->
  StronglySorted
    (if is_desc order then descending (sort_key sort_by)
     else ascending (sort_key sort_by)) out ->
  (forall q,
     filter (has_key (sort_key sort_by) q) out
     = filter (has_key (sort_key sort_by) q) (PyDict.values data)) ->
  sort_patient sort_by order data = (inr out, data).
Proof.
  intros Hfield Horder Hnum Hs Hf.
  rewrite sort_patient_valid by assumption.
  apply numeric_field_key in Hnum.
  now rewrite (sorted_determined _ Hnum Hs Hf).
Qed.

(** X12: when no two records have the same sort key, sorting with order
    desc returns the reverse of what sorting with order asc returns. *)
Theorem desc_reverses_asc (data : store) (sort_by : string) :
  In sort_by valid_fields ->
  (forall r, In r (PyDict.values data) -> numeric_field sort_by r) ->
  (forall q,
     (List.length
        (filter (has_key (sort_key sort_by) q) (PyDict.values data))
      <= 1)%nat) ->
  exists out,
    sort_patient sort_by (Some "asc") data = (inr out, data)
    /\ sort_patient sort_by (Some "desc") data = (inr (rev out), data).
Proof.
  intros Hfield Hnum Hone.
  apply numeric_field_key in Hnum.
  destruct (@sorted_numeric _ _ _ _ false Hnum) as (out & Hasc & Hs & Hf).
  exists out.
  rewrite !sort_patient_valid by (simpl; auto).
  simpl is_desc. rewrite Hasc. split; [reflexivity|].
  rewrite (@sorted_determined _ _ _ _ (rev out) true Hnum);
    [reflexivity | now apply StronglySorted_rev |].
  intros q. rewrite filter_rev, Hf. now apply rev_short.
Qed.

(** X13: on every document that create, update and delete requests make
    out of a document in stored form, the empty one among them, sorting by
    an accepted field in an accepted order succeeds and returns the
    records of the document, each once. *)
Theorem sort_succeeds_after_requests (lax_int : value -> option Z)
    (lax_float : value -> option Q) (rs : list request) (data : store)
    (sort_by : string) (order : option string) :
  store_ok data ->
  In sort_by valid_fields ->
  In order [None; Some "asc"; Some "desc"] ->
  exists out,
    sort_patient sort_by order (run lax_int lax_float rs data)
    = (inr out, run lax_int lax_float rs data)
    /\ Permutation out (PyDict.values (run lax_int lax_float rs data)).
Proof.
  intros Hok Hfield Horder.
  apply (run_store_ok lax_int lax_float rs) in Hok.
  set (data' := run lax_int lax_float rs data) in *.
  assert (Hnum : forall r, In r (PyDict.values data') ->
                   numeric_field sort_by r)
    by (intros r Hr; apply stored_form_numeric_field; auto).
  apply numeric_field_key in Hnum.
  destruct (@sorted_numeric _ _ _ _ (is_desc order) Hnum)
    as (out & Hsorted & _ & _).
  exists out. rewrite sort_patient_valid by assumption.
  rewrite Hsorted. split; [reflexivity|].
  eapply sorted_perm. exact Hsorted.
Qed.

(** X14: when the document holds two records or more and one of them has
    [None] under the sort field, sorting by an accepted field in an
    accepted order raises a type error, [<] being asked of [None]; the
    document is not changed. *)
Theorem sort_fails_on_null (data : store) (sort_by : string)
    (order : option string) :
  In sort_by valid_fields ->
  In order [None; Some "asc"; Some "desc"] ->
  (2 <= List.length data)%nat ->
  (exists r, In r (PyDict.values data) /\ PyDict.get sort_by r = Some VNone) ->
  sort_patient sort_by order data = (inl TypeError, data).
Proof.
  intros Hfield Horder Hlen (r & Hr & Hk).
  rewrite sort_patient_valid by assumption.
  rewrite sorted_None_key; [reflexivity | |].
  - exists r. split; [exact Hr|].
    unfold PyDict.get_default. now rewrite Hk.
  - unfold PyDict.values. now rewrite length_map.
Qed.

(** ** More on validation *)

Section MoreValidationFacts.
Variable lax_int : value -> option Z.
Variable lax_float : value -> option Q.

Local Abbreviation validate := (Patient_validate lax_int lax_float).





End MoreValidationFacts.

(** ** More on rounding and the bmi *)







(** ** The further properties at the sample data *)



Lemma failed_request_writes_nothing_witness :
  snd (handle strict_int strict_float (Create nameless_kwargs) one_patient)
  = one_patient.
Proof.
  apply (@failed_request_writes_nothing strict_int strict_float
           (Create nameless_kwargs) one_patient
           (HTTPException 400 "Patient with this ID already exists")).
  reflexivity.
Defined.

Lemma create_keeps_existing_witness :
  PyDict.get "P001"
    (snd (post_create strict_int strict_float nameless_kwargs one_patient))
  = Some (Patient.model_dump_exclude_id john).
Proof.
  apply (@create_keeps_existing strict_int strict_float nameless_kwargs
           one_patient "P001" (Patient.model_dump_exclude_id john)).
  reflexivity.
Defined.

Lemma update_keeps_identifiers_witness :
  PyDict.get "P001"
    (snd (update_patient strict_int strict_float "P003" only_weight
            three_patients))
  = PyDict.get "P001" three_patients.
Proof.
  apply (proj2 (@update_keeps_identifiers strict_int strict_float "P003"
                  only_weight three_patients)).
  discriminate.
Defined.

Lemma deleted_id_is_not_found_witness :
  view_patient "P002" (PyDict.del "P002" three_patients)
  = (inl (HTTPException 404 "Patient not found"),
     PyDict.del "P002" three_patients).
Proof.
  apply (@deleted_id_is_not_found strict_int strict_float "P002"
           three_patients (PyDict.del "P002" three_patients)
           (JSONResponse 200 "Patient deleted successfully")).
  reflexivity.
Defined.

Lemma update_normalises_record_witness :
  exists p,
    Patient.ok p
    /\ Patient.id p = "P009"
    /\ PyDict.get "P009"
         (snd (update_patient strict_int strict_float "P009"
                 (PatientUpdate.Build Unset Unset Unset Unset (SetTo 1.5)
                    Unset)
                 null_height_store))
       = Some (Patient.model_dump_exclude_id p)
    /\ PyDict.keys (Patient.model_dump_exclude_id p) = record_fields
    /\ JSONResponse 200 "Patient updated successfully"
       = JSONResponse 200 "Patient updated successfully".
Proof.
  apply (@update_normalises_record strict_int strict_float "P009"
           (PatientUpdate.Build Unset Unset Unset Unset (SetTo 1.5) Unset)
           null_height_store).
  vm_compute. reflexivity.
Defined.


Lemma update_is_idempotent_witness :
  update_patient strict_int strict_float "P001" only_weight
    (snd (update_patient strict_int strict_float "P001" only_weight
            one_patient))
  = (inr (JSONResponse 200 "Patient updated successfully"),
     snd (update_patient strict_int strict_float "P001" only_weight
            one_patient)).
Proof.
  apply (@update_is_idempotent strict_int strict_float "P001" only_weight
           one_patient).
  vm_compute. reflexivity.
Defined.


Lemma sample_fields_are_numbers (sort_by : string) (r : record) :
  In sort_by valid_fields ->
  In r (PyDict.values three_patients) -> numeric_field sort_by r.
Proof.
  intros Hf Hr v Hv. simpl in Hf, Hr.
  destruct Hf as [<-|[<-|[<-|[]]]];
    destruct Hr as [<-|[<-|[<-|[]]]]; vm_compute in Hv;
    inversion Hv; discriminate.
Qed.

Lemma sort_result_is_determined_witness :
  sort_patient "weight" (Some "desc") three_patients
  = (inr (PyDict.values three_patients), three_patients).
Proof.
  apply (@sort_result_is_determined three_patients "weight" (Some "desc")
           (PyDict.values three_patients)).
  - simpl. auto.
  - simpl. auto.
  - intros r Hr. apply sample_fields_are_numbers; simpl; auto.
  - repeat constructor; discriminate.
  - reflexivity.
Defined.

Lemma desc_reverses_asc_witness :
  exists out,
    sort_patient "height" (Some "asc") three_patients
    = (inr out, three_patients)
    /\ sort_patient "height" (Some "desc") three_patients
       = (inr (rev out), three_patients).
Proof.
  apply (@desc_reverses_asc three_patients "height").
  - simpl. auto.
  - intros r Hr. apply sample_fields_are_numbers; simpl; auto.
  - intros q. simpl.
    destruct (has_key (sort_key "height") q
                (Patient.model_dump_exclude_id john)) eqn:E1;
      destruct (has_key (sort_key "height") q
                  (Patient.model_dump_exclude_id (with_height 1.8 john)))
        eqn:E2;
      destruct (has_key (sort_key "height") q
                  (Patient.model_dump_exclude_id (with_height 1.6 john)))
        eqn:E3;
      simpl; try lia; exfalso;
      unfold has_key in *;
      repeat match goal with
        | H : Qeq_bool _ q = true |- _ => apply Qeq_bool_iff in H
        end.
    + rewrite <- E2 in E1. vm_compute in E1. discriminate E1.
    + rewrite <- E2 in E1. vm_compute in E1. discriminate E1.
    + rewrite <- E3 in E1. vm_compute in E1. discriminate E1.
    + rewrite <- E3 in E2. vm_compute in E2. discriminate E2.
Defined.

Lemma sort_succeeds_after_requests_witness :
  exists out,
    sort_patient "bmi" None
      (run strict_int strict_float
         [Create john_kwargs; Update "P001" only_weight] [])
    = (inr out,
       run strict_int strict_float
         [Create john_kwargs; Update "P001" only_weight] [])
    /\ Permutation out
         (PyDict.values
            (run strict_int strict_float
               [Create john_kwargs; Update "P001" only_weight] [])).
Proof.
  apply (@sort_succeeds_after_requests strict_int strict_float
           [Create john_kwargs; Update "P001" only_weight] [] "bmi" None).
  - intros r [].
  - simpl. auto.
  - simpl. auto.
Defined.

Lemma sort_fails_on_null_witness :
  sort_patient "height" None null_height_store
  = (inl TypeError, null_height_store).
Proof.
  apply (@sort_fails_on_null null_height_store "height" None).
  - simpl. auto.
  - simpl. auto.
  - simpl. lia.
  - exists (PyDict.set "height" VNone (Patient.model_dump_exclude_id john)).
    split; [simpl; auto | reflexivity].
Defined.




